(** * GithubInstallController: the GitHub App linking handshake

    A shallow embedding of
    [packages/backend/src/controllers/githubController.ts]:
    the initiation endpoint [installGithubAppForOrganization] and the
    callback [githubOauthCallback].

    The handlers are asynchronous methods that read and write the session
    ([req.session.oauth]), write the controller's response status and
    headers ([this.setStatus], [this.setHeader]), call three external
    collaborators (the code exchange, the installation listing, the
    credential upsert) and may throw.  They are embedded in a small monad
    that threads the request state, logs every external call, and
    propagates exceptions. *)

From Stdlib Require Import String Ascii List ZArith Bool Lia.
From Stdlib Require Import DecimalString.
From Stdlib Require DecimalZ DecimalPos.
Import ListNotations.
Open Scope string_scope.

(** ** The fragments of JavaScript the controller relies on *)

Module JS.

(** Truthiness of a value of type [string | undefined]: [undefined] and
    the empty string are falsy. *)
Definition truthy (v : option string) : bool :=
  match v with
  | Some s => negb (s =? "")
  | None => false
  end.

(** Narrowing of [string | undefined] to [string] by a truthiness guard:
    [Some s] exactly when the value is truthy. *)
Definition narrow (v : option string) : option string :=
  match v with
  | Some s => if s =? "" then None else Some s
  | None => None
  end.

(** [a === b] on values of type [string | undefined]. *)
Definition strict_eq (a b : option string) : bool :=
  match a, b with
  | Some x, Some y => x =? y
  | None, None => true
  | _, _ => false
  end.

(** [a || b] where [a : string | undefined] and [b : string]. *)
Definition or_else (a : option string) (b : string) : string :=
  match narrow a with
  | Some s => s
  | None => b
  end.

(** [s.replace(pat, repl)] with a string pattern: only the first
    occurrence of [pat] is replaced. *)
Fixpoint String_replace (pat repl s : string) : string :=
  if String.prefix pat s
  then repl ++ String.substring (String.length pat)
                                (String.length s - String.length pat) s
  else match s with
       | EmptyString => s
       | String c s' => String c (String_replace pat repl s')
       end.

(** [`${n}`] for an integer-valued number (decimal notation, as for every
    integer of magnitude below 1e21). *)
Definition Number_toString (n : Z) : string :=
  NilZero.string_of_int (Z.to_int n).

(** Number of occurrences of a character in a string. *)
Fixpoint count_char (c : ascii) (s : string) : nat :=
  match s with
  | EmptyString => 0
  | String d s' => (if Ascii.eqb d c then 1 else 0) + count_char c s'
  end.

(** Every character of [s] occurs in [alphabet]. *)
Fixpoint over_alphabet (alphabet s : string) : bool :=
  match s with
  | EmptyString => true
  | String d s' =>
      (0 <? count_char d alphabet)%nat && over_alphabet alphabet s'
  end.

End JS.

(** ** nanoid *)

(** The alphabet of [nanoid], exported by the package as [urlAlphabet]. *)
Definition urlAlphabet : string :=
  "useandom-26T198340PX75pxJACKVERYMINDBUSHWOLF_GQZbfghjklqvwyzrict".

(** The possible results of [nanoid()]: 21 characters of [urlAlphabet]. *)
Definition is_nanoid (s : string) : bool :=
  (String.length s =? 21)%nat && JS.over_alphabet urlAlphabet s.

(** ** Exceptions *)

Inductive Exn : Type :=
| Error (message : string)
| ForbiddenError (message : string)
| TypeError (message : string)
| UpstreamError (message : string).

Inductive Result (A : Type) : Type :=
| Return (a : A)
| Throw (e : Exn).
Arguments Return {A} a.
Arguments Throw {A} e.

(** ** Session and controller state *)

Module Session.

(** [req.session.oauth]: every field is optional. *)
Record OAuth : Type := mkOAuth {
  returnTo : option string;
  state : option string;
  inviteCode : option string
}.

(** The object literal [{}]. *)
Definition empty : OAuth :=
  {| returnTo := None; state := None; inviteCode := None |}.

(** [req.session]. *)
Record t : Type := mk { oauth : option OAuth }.

(** [req.session.oauth?.state] *)
Definition oauth_state (s : t) : option string :=
  match oauth s with
  | Some o => state o
  | None => None
  end.

(** [req.session.oauth?.returnTo] *)
Definition oauth_returnTo (s : t) : option string :=
  match oauth s with
  | Some o => returnTo o
  | None => None
  end.

End Session.

(** What a handler can change: the session of the request and the status
    and headers of the controller instance. *)
Record St : Type := mkSt {
  session : Session.t;
  status : option nat;
  headers : list (string * string)
}.

(** [this.getHeader(name)]: the latest value set. *)
Fixpoint getHeader (name : string) (hs : list (string * string))
  : option string :=
  match hs with
  | [] => None
  | (k, v) :: hs' => if k =? name then Some v else getHeader name hs'
  end.

(** ** External collaborators *)

(** [userToServerToken.authentication] *)
Record Authentication : Type := mkAuthentication {
  token : string;
  refreshToken : option string
}.

(** An element of [response.data.installations]. *)
Record Installation : Type := mkInstallation { id : Z }.

Record Config : Type := mkConfig {
  siteUrl : string;
  github_redirectDomain : string;
  github_appName : string
}.

(** The parts of the program's environment that are not in this file:
    the configuration, the URL parser, the GitHub clients and the
    credential service.  A collaborator either answers or throws. *)
Record Env : Type := mkEnv {
  lightdashConfig : Config;
  (** [new URL(input, base).href]; [None] when the constructor throws. *)
  URL_href : string -> option string -> option string;
  (** [getGithubApp().oauth.createToken({ code })], giving
      [.authentication]. *)
  createToken : string -> Exn + Authentication;
  (** [new OctokitRest().apps.listInstallationsForAuthenticatedUser]
      with the given [authorization] header, giving
      [.data.installations]. *)
  listInstallationsForAuthenticatedUser : string -> Exn + list Installation;
  (** [getGithubAppService().upsertInstallation(...)]; [Some e] when it
      throws. *)
  upsertInstallation : string -> string -> string -> string -> option Exn
}.

(** The calls a handler makes to its collaborators, in order. *)
Inductive Call : Type :=
| CallCreateToken (code : string)
| CallListInstallations (authorization : string)
| CallUpsertInstallation (userUuid installation_id token refreshToken : string).

Definition is_upsert (c : Call) : bool :=
  match c with
  | CallUpsertInstallation _ _ _ _ => true
  | _ => false
  end.

Definition is_createToken (c : Call) : bool :=
  match c with
  | CallCreateToken _ => true
  | _ => false
  end.

Definition is_listInstallations (c : Call) : bool :=
  match c with
  | CallListInstallations _ => true
  | _ => false
  end.

(** ** The handler monad: state, call log, exceptions *)

Definition M (A : Type) : Type := St -> Result A * St * list Call.

Definition ret {A : Type} (a : A) : M A := fun s => (Return a, s, []).

Definition throw {A : Type} (e : Exn) : M A := fun s => (Throw e, s, []).

Definition bind {A B : Type} (m : M A) (k : A -> M B) : M B :=
  fun s =>
    match m s with
    | (Return a, s1, c1) =>
        match k a s1 with
        | (r, s2, c2) => (r, s2, (c1 ++ c2)%list)
        end
    | (Throw e, s1, c1) => (Throw e, s1, c1)
    end.

Declare Scope handler_scope.
Delimit Scope handler_scope with handler.
Notation "x <- m ;; k" := (bind m (fun x => k))
  (at level 61, m at next level, right associativity) : handler_scope.
Notation "m ;; k" := (bind m (fun _ => k))
  (at level 61, right associativity) : handler_scope.
Open Scope handler_scope.

Definition getSession : M Session.t := fun s => (Return (session s), s, []).

Definition setSession (x : Session.t) : M unit :=
  fun s => (Return tt,
            {| session := x; status := status s; headers := headers s |}, []).

(** [this.setStatus(n)] *)
Definition setStatus (n : nat) : M unit :=
  fun s => (Return tt,
            {| session := session s; status := Some n;
               headers := headers s |}, []).

(** [this.setHeader(name, value)] *)
Definition setHeader (name value : string) : M unit :=
  fun s => (Return tt,
            {| session := session s; status := status s;
               headers := (name, value) :: headers s |}, []).

(** An awaited collaborator call: logged, then its answer or exception. *)
Definition await {A : Type} (c : Call) (answer : Exn + A) : M A :=
  fun s => (match answer with inl e => Throw e | inr a => Return a end,
            s, [c]).

(** [new URL(input).href] and [new URL(input, base).href]. *)
Definition new_URL (env : Env) (input : string) (base : option string)
  : M string :=
  match URL_href env input base with
  | Some href => ret href
  | None => throw (TypeError "Invalid URL")
  end.

(** The components of a finished run. *)
Definition result_of {A : Type} (x : Result A * St * list Call) : Result A :=
  fst (fst x).
Definition state_of {A : Type} (x : Result A * St * list Call) : St :=
  snd (fst x).
Definition calls_of {A : Type} (x : Result A * St * list Call) : list Call :=
  snd x.

(** ** The controller *)

(** [req.session.oauth.<field> = value]: an assignment through
    [req.session.oauth], which throws when that object is undefined. *)
Definition assignOAuth (f : Session.OAuth -> Session.OAuth) : M unit :=
  sess <- getSession ;;
  match Session.oauth sess with
  | Some o => setSession {| Session.oauth := Some (f o) |}
  | None => throw (TypeError "Cannot set properties of undefined")
  end.

(** [req.session.oauth.inviteCode]: a read through [req.session.oauth]. *)
Definition readInviteCode : M (option string) :=
  sess <- getSession ;;
  match Session.oauth sess with
  | Some o => ret (Session.inviteCode o)
  | None => throw (TypeError "Cannot read properties of undefined")
  end.

(** The state token [`${subdomain}_${randomID}`] built by the initiation
    endpoint from one result of [nanoid()]. *)
Definition randomID_of (nanoid : string) : string :=
  JS.String_replace "_" "" nanoid.

Definition state_of_nanoid (cfg : Config) (nanoid : string) : string :=
  github_redirectDomain cfg ++ "_" ++ randomID_of nanoid.

(** [GET /api/v1/github/install].  [userUuid] is [req.user!.userUuid] and
    [nanoid] the value returned by the call [nanoid()]. *)
Definition installGithubAppForOrganization
    (env : Env) (userUuid : string) (nanoid : string) : M unit :=
  returnToUrl <- new_URL env "/generalSettings/integrations"
                   (Some (siteUrl (lightdashConfig env))) ;;
  let randomID := JS.String_replace "_" "" nanoid in
  let subdomain := github_redirectDomain (lightdashConfig env) in
  let state := subdomain ++ "_" ++ randomID in
  let githubAppName := github_appName (lightdashConfig env) in
  setSession {| Session.oauth := Some Session.empty |} ;;
  assignOAuth (fun o => {| Session.returnTo := Some returnToUrl;
                           Session.state := Session.state o;
                           Session.inviteCode := Session.inviteCode o |}) ;;
  assignOAuth (fun o => {| Session.returnTo := Session.returnTo o;
                           Session.state := Some state;
                           Session.inviteCode := Session.inviteCode o |}) ;;
  assignOAuth (fun o => {| Session.returnTo := Session.returnTo o;
                           Session.state := Session.state o;
                           Session.inviteCode := Some userUuid |}) ;;
  setStatus 302 ;;
  setHeader "Location"
    ("https://github.com/apps/" ++ githubAppName
       ++ "/installations/new?state=" ++ state).

(** The query parameters of the callback, each [string | undefined]. *)
Record Query : Type := mkQuery {
  code : option string;
  state : option string;
  installation_id : option string;
  setup_action : option string
}.

(** [GET /api/v1/github/oauth/callback] *)
Definition githubOauthCallback (env : Env) (q : Query) : M unit :=
  sess <- getSession ;;
  if negb (JS.truthy (state q))
     || negb (JS.strict_eq (state q) (Session.oauth_state sess))
  then setStatus 400 ;; throw (Error "State does not match")
  else
    (if JS.strict_eq (setup_action q) (Some "review")
     then setStatus 200
     else ret tt) ;;
    userUuid <- readInviteCode ;;
    match JS.narrow userUuid with
    | None => setStatus 400 ;; throw (Error "User uuid not provided")
    | Some userUuid =>
    match JS.narrow (installation_id q) with
    | None => setStatus 400 ;; throw (Error "Installation id not provided")
    | Some installation_id =>
    match JS.narrow (code q) with
    | None => ret tt
    | Some code =>
        authentication <- await (CallCreateToken code)
                            (createToken env code) ;;
        let token := token authentication in
        match refreshToken authentication with
        | None => throw (ForbiddenError "Invalid authentication token")
        | Some refreshToken =>
            let authorization := "Bearer " ++ token in
            installations <-
              await (CallListInstallations authorization)
                (listInstallationsForAuthenticatedUser env authorization) ;;
            match find (fun i => JS.Number_toString (id i) =? installation_id)
                       installations with
            | None => throw (Error "Invalid installation id")
            | Some _ =>
                await (CallUpsertInstallation
                         userUuid installation_id token refreshToken)
                  (match upsertInstallation env userUuid installation_id
                           token refreshToken with
                   | Some e => inl e
                   | None => inr tt
                   end) ;;
                sess <- getSession ;;
                redirectUrl <-
                  new_URL env (JS.or_else (Session.oauth_returnTo sess) "/")
                    None ;;
                setSession {| Session.oauth := Some Session.empty |} ;;
                setStatus 302 ;;
                setHeader "Location" redirectUrl
            end
        end
    end
    end
    end.

(** A run of the callback for a request in state [s]. *)
Definition run_callback (env : Env) (q : Query) (s : St)
  : Result unit * St * list Call :=
  githubOauthCallback env q s.

(** The inbound [state] passes the check of the first statement. *)
Definition state_valid (q : Query) (s : St) : bool :=
  JS.truthy (state q)
  && JS.strict_eq (state q) (Session.oauth_state (session s)).

(** [setup_action === 'review'] *)
Definition is_review (q : Query) : bool :=
  JS.strict_eq (setup_action q) (Some "review").

(** [req.session.oauth?.inviteCode]: the user who started the flow. *)
Definition initiatingUser (s : St) : option string :=
  match Session.oauth (session s) with
  | Some o => Session.inviteCode o
  | None => None
  end.

(** ** The paths of the callback *)

Definition with_status (n : nat) (s : St) : St :=
  {| session := session s; status := Some n; headers := headers s |}.

(** The request state after the [setup_action] statement. *)
Definition after_setup_action (q : Query) (s : St) : St :=
  if is_review q then with_status 200 s else s.

(** The request state after the completion step. *)
Definition completed (href : string) (s : St) : St :=
  {| session := {| Session.oauth := Some Session.empty |};
     status := Some 302;
     headers := ("Location", href) :: headers s |}.

(** The search of the verification step. *)
Definition find_installation (installation_id : string)
    (installations : list Installation) : option Installation :=
  find (fun i => JS.Number_toString (id i) =? installation_id) installations.

(** Every run of the callback follows exactly one of eleven paths, one per
    exit of the handler.  [Path env q s r] says that the run for query [q]
    from state [s] takes the path that ends in [r]. *)
Inductive Path (env : Env) (q : Query) (s : St)
  : Result unit * St * list Call -> Prop :=
| RejectedState :
    state_valid q s = false ->
    Path env q s (Throw (Error "State does not match"), with_status 400 s, [])
| RejectedUser :
    state_valid q s = true ->
    JS.narrow (initiatingUser s) = None ->
    Path env q s
      (Throw (Error "User uuid not provided"), with_status 400 s, [])
| RejectedInstallation u :
    state_valid q s = true ->
    JS.narrow (initiatingUser s) = Some u ->
    JS.narrow (installation_id q) = None ->
    Path env q s
      (Throw (Error "Installation id not provided"), with_status 400 s, [])
| NoCode u i :
    state_valid q s = true ->
    JS.narrow (initiatingUser s) = Some u ->
    JS.narrow (installation_id q) = Some i ->
    JS.narrow (code q) = None ->
    Path env q s (Return tt, after_setup_action q s, [])
| ExchangeFailed u i c e :
    state_valid q s = true ->
    JS.narrow (initiatingUser s) = Some u ->
    JS.narrow (installation_id q) = Some i ->
    JS.narrow (code q) = Some c ->
    createToken env c = inl e ->
    Path env q s (Throw e, after_setup_action q s, [CallCreateToken c])
| NoRefreshToken u i c a :
    state_valid q s = true ->
    JS.narrow (initiatingUser s) = Some u ->
    JS.narrow (installation_id q) = Some i ->
    JS.narrow (code q) = Some c ->
    createToken env c = inr a ->
    refreshToken a = None ->
    Path env q s
      (Throw (ForbiddenError "Invalid authentication token"),
       after_setup_action q s, [CallCreateToken c])
| ListFailed u i c a r e :
    state_valid q s = true ->
    JS.narrow (initiatingUser s) = Some u ->
    JS.narrow (installation_id q) = Some i ->
    JS.narrow (code q) = Some c ->
    createToken env c = inr a ->
    refreshToken a = Some r ->
    listInstallationsForAuthenticatedUser env ("Bearer " ++ token a)
      = inl e ->
    Path env q s
      (Throw e, after_setup_action q s,
       [CallCreateToken c; CallListInstallations ("Bearer " ++ token a)])
| NotFound u i c a r l :
    state_valid q s = true ->
    JS.narrow (initiatingUser s) = Some u ->
    JS.narrow (installation_id q) = Some i ->
    JS.narrow (code q) = Some c ->
    createToken env c = inr a ->
    refreshToken a = Some r ->
    listInstallationsForAuthenticatedUser env ("Bearer " ++ token a)
      = inr l ->
    find_installation i l = None ->
    Path env q s
      (Throw (Error "Invalid installation id"), after_setup_action q s,
       [CallCreateToken c; CallListInstallations ("Bearer " ++ token a)])
| UpsertFailed u i c a r l x e :
    state_valid q s = true ->
    JS.narrow (initiatingUser s) = Some u ->
    JS.narrow (installation_id q) = Some i ->
    JS.narrow (code q) = Some c ->
    createToken env c = inr a ->
    refreshToken a = Some r ->
    listInstallationsForAuthenticatedUser env ("Bearer " ++ token a)
      = inr l ->
    find_installation i l = Some x ->
    upsertInstallation env u i (token a) r = Some e ->
    Path env q s
      (Throw e, after_setup_action q s,
       [CallCreateToken c; CallListInstallations ("Bearer " ++ token a);
        CallUpsertInstallation u i (token a) r])
| RedirectInvalid u i c a r l x :
    state_valid q s = true ->
    JS.narrow (initiatingUser s) = Some u ->
    JS.narrow (installation_id q) = Some i ->
    JS.narrow (code q) = Some c ->
    createToken env c = inr a ->
    refreshToken a = Some r ->
    listInstallationsForAuthenticatedUser env ("Bearer " ++ token a)
      = inr l ->
    find_installation i l = Some x ->
    upsertInstallation env u i (token a) r = None ->
    URL_href env (JS.or_else (Session.oauth_returnTo (session s)) "/") None
      = None ->
    Path env q s
      (Throw (TypeError "Invalid URL"), after_setup_action q s,
       [CallCreateToken c; CallListInstallations ("Bearer " ++ token a);
        CallUpsertInstallation u i (token a) r])
| Committed u i c a r l x href :
    state_valid q s = true ->
    JS.narrow (initiatingUser s) = Some u ->
    JS.narrow (installation_id q) = Some i ->
    JS.narrow (code q) = Some c ->
    createToken env c = inr a ->
    refreshToken a = Some r ->
    listInstallationsForAuthenticatedUser env ("Bearer " ++ token a)
      = inr l ->
    find_installation i l = Some x ->
    upsertInstallation env u i (token a) r = None ->
    URL_href env (JS.or_else (Session.oauth_returnTo (session s)) "/") None
      = Some href ->
    Path env q s
      (Return tt, completed href s,
       [CallCreateToken c; CallListInstallations ("Bearer " ++ token a);
        CallUpsertInstallation u i (token a) r]).

(** Number of logged calls of one kind. *)
Definition count_calls (kind : Call -> bool) (calls : list Call) : nat :=
  length (filter kind calls).

(** The run ended in a committed success: the handler returned and the
    credential upsert is among its calls. *)
Definition committed (run : Result unit * St * list Call) : bool :=
  match result_of run with
  | Return _ => existsb is_upsert (calls_of run)
  | Throw _ => false
  end.

(** ** A concrete environment and request for examples *)

Module Sample.

(** A URL parser that accepts absolute [https://] inputs as they are and
    resolves a path against such a base; everything else is invalid. *)
Definition parse_href (input : string) (base : option string)
  : option string :=
  if String.prefix "https://" input then Some input
  else match base with
       | Some b => if String.prefix "https://" b
                   then Some (b ++ input) else None
       | None => None
       end.

Definition config : Config :=
  {| siteUrl := "https://app.example.com";
     github_redirectDomain := "eu";
     github_appName := "lightdash-app" |}.

(** The provider exchanges ["codeX"] for token ["T"] with refresh token
    ["R"], and ["codeY"] for token ["U"] without a refresh token; the
    owner of ["T"] has installations 54 and 55. *)
Definition env : Env :=
  {| lightdashConfig := config;
     URL_href := parse_href;
     createToken := fun c =>
       if c =? "codeX"
       then inr {| token := "T"; refreshToken := Some "R" |}
       else if c =? "codeY"
       then inr {| token := "U"; refreshToken := None |}
       else inl (UpstreamError "bad_verification_code");
     listInstallationsForAuthenticatedUser := fun a =>
       if a =? "Bearer T"
       then inr [ {| id := 54 |}; {| id := 55 |} ]
       else inl (UpstreamError "Bad credentials");
     upsertInstallation := fun _ _ _ _ => None |}.

Definition pending : Session.OAuth :=
  {| Session.returnTo :=
       Some "https://app.example.com/generalSettings/integrations";
     Session.state := Some "eu_AbC123";
     Session.inviteCode := Some "user-1" |}.

(** A request whose session holds the pending context and whose
    controller is fresh. *)
Definition st : St :=
  {| session := {| Session.oauth := Some pending |};
     status := None;
     headers := [] |}.

(** The same, for a session whose pending context has no [returnTo]. *)
Definition st_no_returnTo : St :=
  {| session :=
       {| Session.oauth :=
            Some {| Session.returnTo := None;
                    Session.state := Some "eu_AbC123";
                    Session.inviteCode := Some "user-1" |} |};
     status := None;
     headers := [] |}.

Definition query (code installation_id setup_action : option string)
  : Query :=
  {| code := code; state := Some "eu_AbC123";
     installation_id := installation_id;
     setup_action := setup_action |}.

End Sample.

(** ** The endpoints on the linked installation *)

Module SessionUser.

(** [req.user]: the authenticated user of the request. *)
Record t : Type := mk { userUuid : string }.

End SessionUser.

(** The two methods of [getGithubAppService()] that the last two endpoints
    call; each either answers or throws. *)
Record GithubAppService (GitRepo : Type) : Type := mkGithubAppService {
  (** [deleteAppInstallation(user)]; [Some e] when it throws. *)
  deleteAppInstallation : SessionUser.t -> option Exn;
  (** [getRepos(user)] *)
  getRepos : SessionUser.t -> Exn + list GitRepo
}.
Arguments deleteAppInstallation {GitRepo} _ _.
Arguments getRepos {GitRepo} _ _.

Module Api.

(** The envelope [{ status: 'ok', results }] returned by an endpoint. *)
Record t (A : Type) : Type := mk { status : string; results : A }.
Arguments mk {A} _ _.
Arguments status {A} _.
Arguments results {A} _.

End Api.

(** An awaited call of the service of these endpoints: its answer or its
    exception. *)
Definition awaitService {A : Type} (answer : Exn + A) : M A :=
  fun s => (match answer with inl e => Throw e | inr a => Return a end,
            s, []).

(** [DELETE /api/v1/github/uninstall]; [results: undefined] is the unit
    value. *)
Definition uninstallGithubAppForOrganization
    {GitRepo : Type} (services : GithubAppService GitRepo)
    (user : SessionUser.t) : M (Api.t unit) :=
  awaitService (match deleteAppInstallation services user with
                | Some e => inl e
                | None => inr tt
                end) ;;
  setStatus 200 ;;
  ret {| Api.status := "ok"; Api.results := tt |}.

(** [GET /api/v1/github/repos/list] *)
Definition getGithubListRepositories
    {GitRepo : Type} (services : GithubAppService GitRepo)
    (user : SessionUser.t) : M (Api.t (list GitRepo)) :=
  setStatus 200 ;;
  results <- awaitService (getRepos services user) ;;
  ret {| Api.status := "ok"; Api.results := results |}.

(** ** Further notions for the callback *)

(** The callback is turned away by one of its three guards: the state
    check, the user id check or the installation id check. *)
Definition rejected (q : Query) (s : St) : bool :=
  negb (state_valid q s)
  || negb (JS.truthy (initiatingUser s))
  || negb (JS.truthy (installation_id q)).

(** The order in which a run calls its collaborators. *)
Definition protocol (c t u i r : string) : list Call :=
  [CallCreateToken c; CallListInstallations ("Bearer " ++ t);
   CallUpsertInstallation u i t r].

(** The query that the provider sends back after the initiation for
    [nanoid]. *)
Definition callback_query (cfg : Config) (nanoid : string)
    (code installation_id setup_action : option string) : Query :=
  {| code := code;
     state := Some (state_of_nanoid cfg nanoid);
     installation_id := installation_id;
     setup_action := setup_action |}.

(** [Number.isSafeInteger(n)] for an integer [n]: the integers that a
    JavaScript number holds exactly and prints digit by digit. *)
Definition Number_isSafeInteger (n : Z) : bool :=
  (Z.abs n <=? 2 ^ 53 - 1)%Z.

Module SampleService.

(** A service whose user ["user-1"] has two repositories and whose user
    ["user-2"] has no linked installation. *)
Definition services : GithubAppService string :=
  {| deleteAppInstallation := fun u =>
       if SessionUser.userUuid u =? "user-1" then None
       else Some (UpstreamError "not found");
     getRepos := fun u =>
       if SessionUser.userUuid u =? "user-1"
       then inr ["lightdash/dbt"; "lightdash/docs"]
       else inl (UpstreamError "not found") |}.

Definition user1 : SessionUser.t := {| SessionUser.userUuid := "user-1" |}.
Definition user2 : SessionUser.t := {| SessionUser.userUuid := "user-2" |}.

(** The sample environment with a site URL that is no valid base. *)
Definition env_bad_site : Env :=
  {| lightdashConfig :=
       {| siteUrl := "app.example.com";
          github_redirectDomain := "eu";
          github_appName := "lightdash-app" |};
     URL_href := URL_href Sample.env;
     createToken := createToken Sample.env;
     listInstallationsForAuthenticatedUser :=
       listInstallationsForAuthenticatedUser Sample.env;
     upsertInstallation := upsertInstallation Sample.env |}.

(** The sample environment with a credential store that is down. *)
Definition env_store_down : Env :=
  {| lightdashConfig := lightdashConfig Sample.env;
     URL_href := URL_href Sample.env;
     createToken := createToken Sample.env;
     listInstallationsForAuthenticatedUser :=
       listInstallationsForAuthenticatedUser Sample.env;
     upsertInstallation := fun _ _ _ _ => Some (UpstreamError "db down") |}.

End SampleService.

(** ** Basic facts about the JavaScript fragments *)

Lemma strict_eq_true_iff (a b : option string) :
  JS.strict_eq a b = true <-> a = b.
Proof.
  destruct a as [x|], b as [y|]; simpl; split; intro H;
    try discriminate; try reflexivity.
  - apply String.eqb_eq in H. now subst.
  - injection H as ->. apply String.eqb_refl.
Qed.

Lemma truthy_narrow (v : option string) :
  JS.truthy v = true <-> exists s, JS.narrow v = Some s.
Proof.
  destruct v as [s|]; simpl.
  - destruct (s =? ""); simpl; split; intro H;
      try discriminate; eauto; now destruct H.
  - split; [discriminate | now intros [s H]].
Qed.

Lemma narrow_Some (v : option string) (s : string) :
  JS.narrow v = Some s -> v = Some s /\ s <> "".
Proof.
  destruct v as [x|]; simpl; [|discriminate].
  destruct (x =? "") eqn:E; [discriminate|].
  intros [= ->]. split; [reflexivity|].
  now apply String.eqb_neq.
Qed.

Lemma narrow_None (v : option string) :
  JS.narrow v = None <-> JS.truthy v = false.
Proof.
  destruct v as [x|]; simpl; [|tauto].
  destruct (x =? ""); simpl; split; congruence.
Qed.

Lemma state_valid_spec (q : Query) (s : St) :
  state_valid q s = true <->
  exists t, state q = Some t /\ t <> ""
            /\ Session.oauth_state (session s) = Some t.
Proof.
  unfold state_valid. rewrite andb_true_iff, strict_eq_true_iff.
  split.
  - intros [Ht Heq]. apply truthy_narrow in Ht as [t Ht].
    apply narrow_Some in Ht as [Hq Hne].
    exists t. repeat split; congruence.
  - intros [t [Hq [Hne Hs]]]. rewrite Hq, Hs. split; [|reflexivity].
    simpl. apply String.eqb_neq in Hne. now rewrite Hne.
Qed.

(** The guard of the first statement is the negation of [state_valid]. *)
Lemma state_guard (q : Query) (s : St) :
  negb (JS.truthy (state q))
  || negb (JS.strict_eq (state q) (Session.oauth_state (session s)))
  = negb (state_valid q s).
Proof. unfold state_valid. now rewrite negb_andb. Qed.

(** ** Two runs of the specification's examples *)

Example sample_success :
  run_callback Sample.env
    (Sample.query (Some "codeX") (Some "55") None) Sample.st
  = (Return tt,
     {| session := {| Session.oauth := Some Session.empty |};
        status := Some 302;
        headers :=
          [("Location",
            "https://app.example.com/generalSettings/integrations")] |},
     [CallCreateToken "codeX"; CallListInstallations "Bearer T";
      CallUpsertInstallation "user-1" "55" "T" "R"]).
Proof. reflexivity. Qed.

Example sample_wrong_state :
  run_callback Sample.env
    {| code := Some "codeX"; state := Some "eu_WRONG";
       installation_id := Some "55"; setup_action := None |} Sample.st
  = (Throw (Error "State does not match"),
     {| session := session Sample.st; status := Some 400; headers := [] |},
     []).
Proof. reflexivity. Qed.

(** ** Soundness of the path relation *)

Lemma session_after_setup_action (q : Query) (s : St) :
  session (after_setup_action q s) = session s.
Proof. unfold after_setup_action. now destruct (is_review q). Qed.

Lemma headers_after_setup_action (q : Query) (s : St) :
  headers (after_setup_action q s) = headers s.
Proof. unfold after_setup_action. now destruct (is_review q). Qed.

Lemma status_after_setup_action (q : Query) (s : St) :
  status (after_setup_action q s)
  = if is_review q then Some 200 else status s.
Proof. unfold after_setup_action. now destruct (is_review q). Qed.

Lemma setup_action_statement (q : Query) (s : St) :
  (if JS.strict_eq (setup_action q) (Some "review")
   then setStatus 200 else ret tt) s
  = (Return tt, after_setup_action q s, []).
Proof.
  unfold after_setup_action, is_review.
  destruct (JS.strict_eq (setup_action q) (Some "review")); [reflexivity|].
  now destruct s.
Qed.

Lemma callback_rejected_state (env : Env) (q : Query) (s : St) :
  state_valid q s = false ->
  run_callback env q s
  = (Throw (Error "State does not match"), with_status 400 s, []).
Proof.
  intros H. unfold run_callback, githubOauthCallback.
  unfold bind at 1. unfold getSession at 1.
  rewrite state_guard, H. reflexivity.
Qed.

Ltac run_unfold :=
  cbv beta iota delta
    [readInviteCode new_URL await bind ret throw setStatus setSession
     setHeader getSession].

(** Soundness of the path relation: the run is on one of the paths. *)
Lemma run_callback_path (env : Env) (q : Query) (s : St) :
  Path env q s (run_callback env q s).
Proof.
  destruct (state_valid q s) eqn:Hv.
  2:{ rewrite callback_rejected_state by assumption. now constructor. }
  unfold run_callback, githubOauthCallback.
  unfold bind at 1. unfold getSession at 1. cbv beta iota.
  rewrite state_guard, Hv. cbn [negb].
  unfold bind at 1. rewrite setup_action_statement.
  run_unfold. rewrite !session_after_setup_action.
  assert (Hu0 : initiatingUser s
                = match Session.oauth (session s) with
                  | Some o => Session.inviteCode o
                  | None => None
                  end) by reflexivity.
  destruct (Session.oauth (session s)) as [o|] eqn:Ho.
  2:{ apply state_valid_spec in Hv as [t [_ [_ Ht]]].
      unfold Session.oauth_state in Ht. rewrite Ho in Ht. discriminate. }
  cbv beta iota. cbn [app].
  destruct (JS.narrow (Session.inviteCode o)) as [u|] eqn:Hu;
    rewrite <- Hu0 in Hu.
  2:{ cbn; rewrite session_after_setup_action, headers_after_setup_action.
      now apply RejectedUser. }
  destruct (JS.narrow (installation_id q)) as [i|] eqn:Hi.
  2:{ cbn; rewrite session_after_setup_action, headers_after_setup_action.
      eapply RejectedInstallation; eassumption. }
  destruct (JS.narrow (code q)) as [c|] eqn:Hc.
  2:{ cbn. eapply NoCode; eassumption. }
  destruct (createToken env c) as [e|a] eqn:Hx.
  { cbn. eapply ExchangeFailed; eassumption. }
  destruct (refreshToken a) as [r|] eqn:Hr.
  2:{ cbn. eapply NoRefreshToken; eassumption. }
  destruct (listInstallationsForAuthenticatedUser env ("Bearer " ++ token a))
    as [e|l] eqn:Hl.
  { cbn. eapply ListFailed; eassumption. }
  fold (find_installation i l).
  destruct (find_installation i l) as [x|] eqn:Hf.
  2:{ cbn. eapply NotFound; eassumption. }
  destruct (upsertInstallation env u i (token a) r) as [e|] eqn:Hup.
  { cbn. eapply UpsertFailed; eassumption. }
  rewrite !session_after_setup_action.
  destruct (URL_href env (JS.or_else (Session.oauth_returnTo (session s)) "/")
              None) as [href|] eqn:Hurl.
  2:{ cbn. eapply RedirectInvalid; eassumption. }
  cbn. rewrite headers_after_setup_action.
  eapply Committed; eassumption.
Qed.

(** Inversion of a run into its path. *)
Ltac on_path env q s :=
  let P := fresh "P" in
  let run := fresh "run" in
  let E := fresh "Erun" in
  pose proof (run_callback_path env q s) as P;
  remember (run_callback env q s) as run eqn:E;
  clear E; destruct P.

Lemma find_installation_Some i l x :
  find_installation i l = Some x ->
  In x l /\ JS.Number_toString (id x) = i.
Proof.
  unfold find_installation. intros H. apply find_some in H as [Hin Heq].
  split; [assumption|]. now apply String.eqb_eq.
Qed.

Lemma find_installation_None i l :
  find_installation i l = None <->
  forall x, In x l -> JS.Number_toString (id x) <> i.
Proof.
  unfold find_installation. split.
  - intros H x Hin. apply String.eqb_neq.
    exact (find_none _ _ H x Hin).
  - intros H. destruct (find _ l) as [x|] eqn:E; [|reflexivity].
    apply find_some in E as [Hin Heq]. apply String.eqb_eq in Heq.
    now destruct (H x Hin).
Qed.

Lemma state_valid_false (q : Query) (s : St) :
  state q = None \/ state q <> Session.oauth_state (session s) ->
  state_valid q s = false.
Proof.
  intros H. destruct (state_valid q s) eqn:Hv; [|reflexivity].
  apply state_valid_spec in Hv as [t [Hq [_ Hs]]].
  destruct H as [H|H]; congruence.
Qed.

(** ** The callback: rejections *)

(** C2.  A callback whose [state] parameter is absent, or differs from the
    session's pending state (which includes a session without pending
    context), sets status 400 and throws ["State does not match"]; it makes
    no call at all, so neither a code exchange nor an installation listing,
    and it leaves the session as it was. *)
Theorem C2_state_mismatch_rejected (env : Env) (q : Query) (s : St) :
  state q = None \/ state q <> Session.oauth_state (session s) ->
  result_of (run_callback env q s) = Throw (Error "State does not match")
  /\ status (state_of (run_callback env q s)) = Some 400
  /\ count_calls is_createToken (calls_of (run_callback env q s)) = 0
  /\ count_calls is_listInstallations (calls_of (run_callback env q s)) = 0
  /\ calls_of (run_callback env q s) = []
  /\ session (state_of (run_callback env q s)) = session s.
Proof.
  intros H. apply state_valid_false in H.
  rewrite (callback_rejected_state env q s H). now repeat split.
Qed.

Lemma C2_state_mismatch_rejected_witness :
  result_of (run_callback Sample.env
               {| code := Some "codeX"; state := Some "eu_WRONG";
                  installation_id := Some "55"; setup_action := None |}
               Sample.st)
  = Throw (Error "State does not match")
  /\ session (state_of (run_callback Sample.env
               {| code := Some "codeX"; state := Some "eu_WRONG";
                  installation_id := Some "55"; setup_action := None |}
               Sample.st))
     = session Sample.st.
Proof.
  destruct (C2_state_mismatch_rejected Sample.env
              {| code := Some "codeX"; state := Some "eu_WRONG";
                 installation_id := Some "55"; setup_action := None |}
              Sample.st) as [H1 [_ [_ [_ [_ H2]]]]].
  - right. simpl. discriminate.
  - split; [exact H1 | exact H2].
Defined.

(** C8.  With a valid state, a session context without initiating user id
    or a query without [installation_id] makes the callback set status 400
    and throw, before any call to a collaborator (so no exchange, no
    listing, no credential write), with the session unchanged. *)
Theorem C8_missing_input_rejected (env : Env) (q : Query) (s : St) :
  state_valid q s = true ->
  JS.truthy (initiatingUser s) = false
  \/ JS.truthy (installation_id q) = false ->
  (result_of (run_callback env q s)
     = Throw (Error "User uuid not provided")
   \/ result_of (run_callback env q s)
     = Throw (Error "Installation id not provided"))
  /\ status (state_of (run_callback env q s)) = Some 400
  /\ calls_of (run_callback env q s) = []
  /\ session (state_of (run_callback env q s)) = session s.
Proof.
  intros Hv H.
  assert (Hn : JS.narrow (initiatingUser s) = None
               \/ JS.narrow (installation_id q) = None)
    by (destruct H; [left | right]; now apply narrow_None).
  on_path env q s; cbn; try (repeat split; auto; fail);
    destruct Hn; congruence.
Qed.

Lemma C8_missing_input_rejected_witness :
  status (state_of (run_callback Sample.env
                      (Sample.query (Some "codeX") None None) Sample.st))
  = Some 400
  /\ calls_of (run_callback Sample.env
                 (Sample.query (Some "codeX") None None) Sample.st) = [].
Proof.
  destruct (C8_missing_input_rejected Sample.env
              (Sample.query (Some "codeX") None None) Sample.st)
    as [_ [H1 [H2 _]]].
  - reflexivity.
  - right. reflexivity.
  - split; [exact H1 | exact H2].
Defined.

(** C9.  With a valid state, an initiating user id and an
    [installation_id], a [setup_action] other than ['review'] and no
    [code], the handler returns without doing anything: no call to a
    collaborator, and the session, the status and the headers are as they
    were. *)
Theorem C9_no_code_is_a_no_op (env : Env) (q : Query) (s : St) :
  state_valid q s = true ->
  JS.truthy (initiatingUser s) = true ->
  JS.truthy (installation_id q) = true ->
  is_review q = false ->
  JS.truthy (code q) = false ->
  run_callback env q s = (Return tt, s, []).
Proof.
  intros Hv Hu Hi Hr Hc.
  apply truthy_narrow in Hu as [u Hu]. apply truthy_narrow in Hi as [i Hi].
  apply narrow_None in Hc.
  on_path env q s; try congruence.
  unfold after_setup_action. now rewrite Hr.
Qed.

Lemma C9_no_code_is_a_no_op_witness :
  run_callback Sample.env (Sample.query None (Some "55") None) Sample.st
  = (Return tt, Sample.st, []).
Proof.
  apply (C9_no_code_is_a_no_op Sample.env
           (Sample.query None (Some "55") None) Sample.st);
    reflexivity.
Defined.

(** ** The callback: authorization and verification failures *)

Lemma CallListInstallations_inj (a b : string) :
  CallListInstallations a = CallListInstallations b -> a = b.
Proof. now intros [= ->]. Qed.

Ltac absurd_call :=
  match goal with
  | H : In _ _ |- _ =>
      cbn [In calls_of snd] in H;
      repeat match type of H with
             | _ \/ _ => destruct H as [H|H]
             end;
      try discriminate H; try contradiction
  end.

(** C6.  When the callback performs the code exchange and the exchange
    answers with an authentication that carries no refresh token, the run
    ends by throwing [ForbiddenError]; the exchange is the only call made,
    so no credential is written, and the session is unchanged. *)
Theorem C6_no_refresh_token_forbidden
    (env : Env) (q : Query) (s : St) (c : string) (a : Authentication) :
  In (CallCreateToken c) (calls_of (run_callback env q s)) ->
  createToken env c = inr a ->
  refreshToken a = None ->
  result_of (run_callback env q s)
    = Throw (ForbiddenError "Invalid authentication token")
  /\ count_calls is_upsert (calls_of (run_callback env q s)) = 0
  /\ calls_of (run_callback env q s) = [CallCreateToken c]
  /\ session (state_of (run_callback env q s)) = session s.
Proof.
  intros Hin Hx Hr.
  on_path env q s; absurd_call;
    match goal with
    | H : CallCreateToken _ = CallCreateToken _ |- _ =>
        injection H as ->
    end;
    try congruence.
  cbn. rewrite session_after_setup_action. now repeat split.
Qed.

Lemma C6_no_refresh_token_forbidden_witness :
  result_of (run_callback Sample.env
               (Sample.query (Some "codeY") (Some "55") None) Sample.st)
  = Throw (ForbiddenError "Invalid authentication token")
  /\ count_calls is_upsert
       (calls_of (run_callback Sample.env
                    (Sample.query (Some "codeY") (Some "55") None)
                    Sample.st)) = 0.
Proof.
  destruct (C6_no_refresh_token_forbidden Sample.env
              (Sample.query (Some "codeY") (Some "55") None) Sample.st
              "codeY" {| token := "U"; refreshToken := None |})
    as [H1 [H2 _]].
  - simpl. left. reflexivity.
  - reflexivity.
  - reflexivity.
  - split; [exact H1 | exact H2].
Defined.

(** C1.  A callback with a valid state, an initiating user id, an
    installation id and a code, for which the provider exchanges the code
    for a token pair and answers the listing made with that token by a
    list in which no installation has an id whose string form equals the
    claimed [installation_id], ends by throwing
    ["Invalid installation id"]: its calls are the exchange and the
    listing with the exchanged token, the credential upsert is never
    called, and the session is unchanged. *)
Theorem C1_unlisted_installation_never_written
    (env : Env) (q : Query) (s : St) (u i c r : string)
    (a : Authentication) (installations : list Installation) :
  state_valid q s = true ->
  initiatingUser s = Some u -> u <> "" ->
  installation_id q = Some i -> i <> "" ->
  code q = Some c -> c <> "" ->
  createToken env c = inr a ->
  refreshToken a = Some r ->
  listInstallationsForAuthenticatedUser env ("Bearer " ++ token a)
    = inr installations ->
  (forall x, In x installations -> JS.Number_toString (id x) <> i) ->
  result_of (run_callback env q s)
    = Throw (Error "Invalid installation id")
  /\ calls_of (run_callback env q s)
     = [CallCreateToken c; CallListInstallations ("Bearer " ++ token a)]
  /\ count_calls is_upsert (calls_of (run_callback env q s)) = 0
  /\ session (state_of (run_callback env q s)) = session s.
Proof.
  intros Hv Hu Hune Hi Hine Hc Hcne Hx Hr Hl Hno.
  apply String.eqb_neq in Hune, Hine, Hcne.
  assert (Nu : JS.narrow (initiatingUser s) = Some u)
    by (rewrite Hu; cbn; now rewrite Hune).
  assert (Ni : JS.narrow (installation_id q) = Some i)
    by (rewrite Hi; cbn; now rewrite Hine).
  assert (Nc : JS.narrow (code q) = Some c)
    by (rewrite Hc; cbn; now rewrite Hcne).
  apply find_installation_None in Hno.
  on_path env q s; try congruence.
  cbn. rewrite session_after_setup_action.
  repeat split. congruence.
Qed.

Lemma C1_unlisted_installation_never_written_witness :
  result_of (run_callback Sample.env
               (Sample.query (Some "codeX") (Some "99") None) Sample.st)
  = Throw (Error "Invalid installation id")
  /\ count_calls is_upsert
       (calls_of (run_callback Sample.env
                    (Sample.query (Some "codeX") (Some "99") None)
                    Sample.st)) = 0.
Proof.
  destruct (C1_unlisted_installation_never_written Sample.env
              (Sample.query (Some "codeX") (Some "99") None) Sample.st
              "user-1" "99" "codeX" "R"
              {| token := "T"; refreshToken := Some "R" |}
              [ {| id := 54 |}; {| id := 55 |} ])
    as [H1 [_ [H2 _]]].
  - reflexivity.
  - reflexivity.
  - discriminate.
  - reflexivity.
  - discriminate.
  - reflexivity.
  - discriminate.
  - reflexivity.
  - reflexivity.
  - reflexivity.
  - intros x [<-|[<-|[]]]; simpl; discriminate.
  - split; [exact H1 | exact H2].
Defined.

(** ** The callback: the setup-review branch *)

(** Three equations of the handler monad. *)
Lemma bind_ret {A B : Type} (a : A) (k : A -> M B) (s : St) :
  bind (ret a) k s = k a s.
Proof. unfold bind, ret. now destruct (k a s) as [[r s'] c]. Qed.

Lemma bind_setStatus {B : Type} (n : nat) (k : unit -> M B) (s : St) :
  bind (setStatus n) k s = k tt (with_status n s).
Proof.
  unfold bind, setStatus, with_status.
  now destruct (k tt _) as [[r s'] c].
Qed.

Lemma bind_getSession {B : Type} (k : Session.t -> M B) (s : St) :
  bind getSession k s = k (session s) s.
Proof.
  unfold bind, getSession. now destruct (k (session s) s) as [[r s'] c].
Qed.

(** The [setup_action === 'review'] statement only sets the status: the
    handler goes on as for the same query without [setup_action], from a
    controller whose status is 200. *)
Lemma review_only_sets_status (env : Env) (q : Query) (s : St) :
  state_valid q s = true ->
  is_review q = true ->
  run_callback env q s
  = run_callback env
      {| code := code q; state := state q;
         installation_id := installation_id q; setup_action := None |}
      (with_status 200 s).
Proof.
  intros Hv Hr.
  unfold run_callback, githubOauthCallback.
  rewrite !bind_getSession.
  cbn [state code installation_id setup_action with_status session].
  rewrite state_guard, Hv. cbn [negb].
  unfold is_review in Hr. rewrite Hr. cbn [JS.strict_eq].
  now rewrite bind_setStatus, bind_ret.
Qed.

(** C3.  The [setup_action === 'review'] branch has no [return]: with a
    [code] and an [installation_id] in the query, the run goes on to the
    exchange, the listing and the credential upsert, clears the session
    and answers 302 (the status 200 is overwritten); without an
    [installation_id] it ends with status 400 and an exception. *)
Theorem C3_review_falls_through :
  run_callback Sample.env
    (Sample.query (Some "codeX") (Some "55") (Some "review")) Sample.st
  = (Return tt,
     completed "https://app.example.com/generalSettings/integrations"
       Sample.st,
     [CallCreateToken "codeX"; CallListInstallations "Bearer T";
      CallUpsertInstallation "user-1" "55" "T" "R"])
  /\ run_callback Sample.env
       (Sample.query None None (Some "review")) Sample.st
     = (Throw (Error "Installation id not provided"),
        with_status 400 Sample.st, []).
Proof. split; reflexivity. Qed.

(** ** The callback: when the session context is cleared *)

(** C4, as the specification states it, fails: a callback with a valid
    state and [setup_action === 'review'] does not clear the pending
    context.  For the session [{state: 'eu_AbC123', returnTo, inviteCode:
    'user-1'}] and the query [state=eu_AbC123], [setup_action=review],
    [installation_id=55] without [code], the handler sets status 200 and
    returns; the session still holds the pending context. *)
Lemma C4_review_branch_keeps_context :
  ~ (forall (env : Env) (q : Query) (s : St),
        Session.oauth (session (state_of (run_callback env q s)))
          = Some Session.empty
        <-> (state_valid q s && is_review q = true
             \/ committed (run_callback env q s) = true)).
Proof.
  intros H.
  destruct (H Sample.env (Sample.query None (Some "55") (Some "review"))
              Sample.st) as [_ H2].
  assert (E : state_valid (Sample.query None (Some "55") (Some "review"))
                Sample.st
              && is_review (Sample.query None (Some "55") (Some "review"))
              = true) by reflexivity.
  specialize (H2 (or_introl E)). cbv in H2. discriminate H2.
Qed.

(** C4, amended.  The session context is replaced by the empty context
    exactly when the run ends in a committed success (the upsert was called
    and the handler returned); in every other run, among them every run
    that fails the state check, the session is left as it was. *)
Theorem C4_cleared_exactly_on_commit (env : Env) (q : Query) (s : St) :
  (committed (run_callback env q s) = true ->
     Session.oauth (session (state_of (run_callback env q s)))
       = Some Session.empty
     /\ Session.oauth (session s) <> Some Session.empty)
  /\ (committed (run_callback env q s) = false ->
        session (state_of (run_callback env q s)) = session s)
  /\ (state_valid q s = false ->
        committed (run_callback env q s) = false
        /\ session (state_of (run_callback env q s)) = session s).
Proof.
  on_path env q s; cbn; rewrite ?session_after_setup_action;
    repeat split; try reflexivity; try discriminate; try congruence.
  intros Hs.
  match goal with
  | H : state_valid _ _ = true |- _ =>
      apply state_valid_spec in H as [t [_ [_ Ht]]]
  end.
  unfold Session.oauth_state in Ht. rewrite Hs in Ht. discriminate Ht.
Qed.

(** ** The callback: completion *)

Lemma CallUpsertInstallation_inj (u i t r u' i' t' r' : string) :
  CallUpsertInstallation u i t r = CallUpsertInstallation u' i' t' r' ->
  u = u' /\ i = i' /\ t = t' /\ r = r'.
Proof. intros H. injection H as -> -> -> ->. now repeat split. Qed.

Ltac same_upsert :=
  match goal with
  | H : CallUpsertInstallation _ _ _ _ = CallUpsertInstallation _ _ _ _
    |- _ =>
      apply CallUpsertInstallation_inj in H;
      destruct H as [? [? [? ?]]]; subst
  end.

(** Completion when the redirect target parses: once the upsert has been
    called and has succeeded, the handler returns with the session context
    emptied, status 302 and the [Location] header set to the [href] of the
    parsed target. *)
Lemma callback_completion
    (env : Env) (q : Query) (s : St) (u i t r href : string) :
  In (CallUpsertInstallation u i t r) (calls_of (run_callback env q s)) ->
  upsertInstallation env u i t r = None ->
  URL_href env (JS.or_else (Session.oauth_returnTo (session s)) "/") None
    = Some href ->
  result_of (run_callback env q s) = Return tt
  /\ state_of (run_callback env q s) = completed href s.
Proof.
  intros Hin Hup Hurl.
  on_path env q s; absurd_call; same_upsert; try congruence.
  cbn. split; [reflexivity|]. congruence.
Qed.

(** A committed run passed through a successful upsert and a successful
    parse of the redirect target. *)
Lemma committed_inv (env : Env) (q : Query) (s : St) :
  committed (run_callback env q s) = true ->
  exists href,
    URL_href env (JS.or_else (Session.oauth_returnTo (session s)) "/") None
      = Some href
    /\ state_of (run_callback env q s) = completed href s.
Proof.
  intros H. on_path env q s; cbn in H; try discriminate H.
  eexists. split; [eassumption | reflexivity].
Qed.

(** C7.  The fallback of the completion step fails: when the stored
    [returnTo] is absent (or empty) the handler evaluates [new URL('/')],
    which has no base to resolve against and throws.  After a successful
    upsert the run then ends in a [TypeError]; the session context is not
    cleared, no [Location] header is set and the status is not 302. *)
Theorem C7_fallback_root_path_throws
    (env : Env) (q : Query) (s : St) (u i t r : string) :
  URL_href env "/" None = None ->
  JS.truthy (Session.oauth_returnTo (session s)) = false ->
  In (CallUpsertInstallation u i t r) (calls_of (run_callback env q s)) ->
  upsertInstallation env u i t r = None ->
  result_of (run_callback env q s) = Throw (TypeError "Invalid URL")
  /\ session (state_of (run_callback env q s)) = session s
  /\ headers (state_of (run_callback env q s)) = headers s
  /\ status (state_of (run_callback env q s))
     = if is_review q then Some 200 else status s.
Proof.
  intros Hroot Hrt Hin Hup.
  assert (Hor : JS.or_else (Session.oauth_returnTo (session s)) "/" = "/").
  { unfold JS.or_else. apply narrow_None in Hrt. now rewrite Hrt. }
  on_path env q s; absurd_call; same_upsert; try congruence.
  cbn. rewrite session_after_setup_action, headers_after_setup_action,
         status_after_setup_action.
  now repeat split.
Qed.

Lemma C7_fallback_root_path_throws_witness :
  run_callback Sample.env
    (Sample.query (Some "codeX") (Some "55") None) Sample.st_no_returnTo
  = (Throw (TypeError "Invalid URL"), Sample.st_no_returnTo,
     [CallCreateToken "codeX"; CallListInstallations "Bearer T";
      CallUpsertInstallation "user-1" "55" "T" "R"])
  /\ result_of
       (run_callback Sample.env
          (Sample.query (Some "codeX") (Some "55") None)
          Sample.st_no_returnTo)
     = Throw (TypeError "Invalid URL").
Proof.
  split; [reflexivity|].
  apply (C7_fallback_root_path_throws Sample.env
           (Sample.query (Some "codeX") (Some "55") None)
           Sample.st_no_returnTo "user-1" "55" "T" "R").
  - reflexivity.
  - reflexivity.
  - simpl. right. right. left. reflexivity.
  - reflexivity.
Defined.

(** ** The initiation endpoint *)

Lemma bind_setSession {B : Type} (x : Session.t) (k : unit -> M B) (s : St) :
  bind (setSession x) k s
  = k tt {| session := x; status := status s; headers := headers s |}.
Proof. unfold bind, setSession. now destruct (k tt _) as [[r s'] c]. Qed.

(** The run of the initiation endpoint when the site URL is a valid base:
    it returns, having replaced the session's context and set the
    redirect to the provider. *)
Lemma install_run (env : Env) (userUuid nanoid href : string) (s : St) :
  URL_href env "/generalSettings/integrations"
    (Some (siteUrl (lightdashConfig env))) = Some href ->
  installGithubAppForOrganization env userUuid nanoid s
  = (Return tt,
     {| session :=
          {| Session.oauth :=
               Some {| Session.returnTo := Some href;
                       Session.state :=
                         Some (state_of_nanoid (lightdashConfig env) nanoid);
                       Session.inviteCode := Some userUuid |} |};
        status := Some 302;
        headers :=
          ("Location",
           "https://github.com/apps/" ++ github_appName (lightdashConfig env)
             ++ "/installations/new?state="
             ++ state_of_nanoid (lightdashConfig env) nanoid)
            :: headers s |},
     []).
Proof.
  intros H. unfold installGithubAppForOrganization, new_URL.
  rewrite H, bind_ret. cbv zeta.
  rewrite bind_setSession.
  unfold assignOAuth.
  repeat (rewrite bind_getSession; cbn [session Session.oauth];
          rewrite bind_setSession; cbn [status headers]).
  reflexivity.
Qed.

(** When the site URL is not a valid base the endpoint throws before it
    touches the session. *)
Lemma install_invalid_siteUrl (env : Env) (userUuid nanoid : string) (s : St) :
  URL_href env "/generalSettings/integrations"
    (Some (siteUrl (lightdashConfig env))) = None ->
  installGithubAppForOrganization env userUuid nanoid s
  = (Throw (TypeError "Invalid URL"), s, []).
Proof.
  intros H. unfold installGithubAppForOrganization, new_URL.
  rewrite H. reflexivity.
Qed.

(** *** The state token *)

Lemma substring_all (s : string) : substring 0 (String.length s) s = s.
Proof. induction s as [|c s IH]; simpl; [reflexivity | now rewrite IH]. Qed.

(** [replace('_', '')] drops the first underscore and nothing else. *)
Lemma randomID_of_cons (c : ascii) (s : string) :
  randomID_of (String c s)
  = if Ascii.eqb c "_" then s else String c (randomID_of s).
Proof.
  unfold randomID_of. cbn [JS.String_replace String.prefix].
  destruct (ascii_dec "_" c) as [<-|Hne].
  - cbn [Ascii.eqb Bool.eqb String.length Nat.sub append substring].
    replace (prefix "" s) with true by now destruct s.
    now rewrite Nat.sub_0_r, substring_all.
  - assert (E : Ascii.eqb c "_" = false)
      by (apply Ascii.eqb_neq; congruence).
    now rewrite E.
Qed.

Lemma count_randomID_of (nanoid : string) :
  JS.count_char "_" (randomID_of nanoid)
  = pred (JS.count_char "_" nanoid).
Proof.
  induction nanoid as [|c s IH]; [reflexivity|].
  rewrite randomID_of_cons. cbn [JS.count_char].
  destruct (Ascii.eqb c "_") eqn:E; [reflexivity|].
  cbn [JS.count_char]. rewrite E, IH. reflexivity.
Qed.

(** The random part is free of the separator exactly when [nanoid()]
    returned at most one underscore. *)
Lemma randomID_of_clean_iff (nanoid : string) :
  JS.count_char "_" (randomID_of nanoid) = 0
  <-> JS.count_char "_" nanoid <= 1.
Proof. rewrite count_randomID_of. lia. Qed.

(** C5.  [nanoid().replace('_', '')] removes only the first underscore: for
    the possible [nanoid()] result ["a_b_cdefghijklmnopqrs"] the random
    part of the state token is ["ab_cdefghijklmnopqrs"], which still holds
    the separator, and the endpoint stores the token
    ["eu_ab_cdefghijklmnopqrs"] in the session. *)
Theorem C5_second_separator_survives :
  is_nanoid "a_b_cdefghijklmnopqrs" = true
  /\ randomID_of "a_b_cdefghijklmnopqrs" = "ab_cdefghijklmnopqrs"
  /\ JS.count_char "_" (randomID_of "a_b_cdefghijklmnopqrs") = 1
  /\ Session.oauth_state
       (session
          (state_of
             (installGithubAppForOrganization Sample.env "user-1"
                "a_b_cdefghijklmnopqrs" Sample.st)))
     = Some "eu_ab_cdefghijklmnopqrs".
Proof. repeat split; reflexivity. Qed.

(** *** The stored return target *)

(** C10.  When the configured site URL is a valid base, so that
    ['/generalSettings/integrations'] resolves on it to [href], the
    initiation endpoint returns with the session context equal to
    [{returnTo: href, state, inviteCode: userUuid}] whatever the session
    held before (the endpoint takes no redirect parameter); and, as a
    serialized URL is not empty and parses to itself, every committed
    callback of a request with that session answers 302 with [Location]
    set to [href]. *)
Theorem C10_initiation_stores_fixed_returnTo
    (env : Env) (userUuid nanoid href : string) (s : St) :
  URL_href env "/generalSettings/integrations"
    (Some (siteUrl (lightdashConfig env))) = Some href ->
  href <> "" ->
  URL_href env href None = Some href ->
  result_of (installGithubAppForOrganization env userUuid nanoid s)
    = Return tt
  /\ session
       (state_of (installGithubAppForOrganization env userUuid nanoid s))
     = {| Session.oauth :=
            Some {| Session.returnTo := Some href;
                    Session.state :=
                      Some (state_of_nanoid (lightdashConfig env) nanoid);
                    Session.inviteCode := Some userUuid |} |}
  /\ forall (q : Query) (s' : St),
       session s'
         = session
             (state_of
                (installGithubAppForOrganization env userUuid nanoid s)) ->
       committed (run_callback env q s') = true ->
       status (state_of (run_callback env q s')) = Some 302
       /\ getHeader "Location" (headers (state_of (run_callback env q s')))
          = Some href.
Proof.
  intros Hsite Hne Hrt.
  rewrite (install_run env userUuid nanoid href s Hsite).
  cbn [result_of state_of fst snd session].
  repeat split; intros.
  - apply committed_inv in H0 as [h [Hh ->]]. reflexivity.
  - apply committed_inv in H0 as [h [Hh ->]].
    rewrite H in Hh. unfold JS.or_else, Session.oauth_returnTo in Hh.
    cbn [Session.oauth Session.returnTo JS.narrow] in Hh.
    apply String.eqb_neq in Hne. rewrite Hne in Hh.
    assert (h = href) by congruence. subst h.
    cbn. reflexivity.
Qed.

Lemma C10_initiation_stores_fixed_returnTo_witness :
  session
    (state_of
       (installGithubAppForOrganization Sample.env "user-1"
          "AbC123defghijklmnopqr"
          {| session := {| Session.oauth := None |};
             status := None; headers := [] |}))
  = {| Session.oauth :=
         Some {| Session.returnTo :=
                   Some "https://app.example.com/generalSettings/integrations";
                 Session.state := Some "eu_AbC123defghijklmnopqr";
                 Session.inviteCode := Some "user-1" |} |}.
Proof.
  destruct (C10_initiation_stores_fixed_returnTo Sample.env "user-1"
              "AbC123defghijklmnopqr"
              "https://app.example.com/generalSettings/integrations"
              {| session := {| Session.oauth := None |};
                 status := None; headers := [] |})
    as [_ [H _]].
  - reflexivity.
  - discriminate.
  - reflexivity.
  - exact H.
Defined.

(** ** Further properties of the callback *)

(** The run on the committing path, from its conditions. *)
Lemma run_committed
    (env : Env) (q : Query) (s : St)
    (u i c r href : string) (a : Authentication)
    (l : list Installation) (x : Installation) :
  state_valid q s = true ->
  JS.narrow (initiatingUser s) = Some u ->
  JS.narrow (installation_id q) = Some i ->
  JS.narrow (code q) = Some c ->
  createToken env c = inr a ->
  refreshToken a = Some r ->
  listInstallationsForAuthenticatedUser env ("Bearer " ++ token a) = inr l ->
  find_installation i l = Some x ->
  upsertInstallation env u i (token a) r = None ->
  URL_href env (JS.or_else (Session.oauth_returnTo (session s)) "/") None
    = Some href ->
  run_callback env q s
  = (Return tt, completed href s, protocol c (token a) u i r).
Proof.
  intros. unfold protocol. on_path env q s; congruence.
Qed.

(** X1.  The credential upsert is reached only through the whole
    handshake: its user is the session's initiating user, its installation
    id is the one of the query, its token pair is the one the provider
    gave for the query's code, and the provider lists, for that token, an
    installation whose id has the claimed string form. *)
Theorem upsert_only_after_verification
    (env : Env) (q : Query) (s : St) (u i t r : string) :
  In (CallUpsertInstallation u i t r) (calls_of (run_callback env q s)) ->
  state_valid q s = true
  /\ initiatingUser s = Some u
  /\ installation_id q = Some i
  /\ (exists c a, code q = Some c /\ createToken env c = inr a
                  /\ token a = t /\ refreshToken a = Some r)
  /\ (exists l x,
        listInstallationsForAuthenticatedUser env ("Bearer " ++ t) = inr l
        /\ In x l /\ JS.Number_toString (id x) = i).
Proof.
  intros Hin.
  on_path env q s; absurd_call; same_upsert;
    repeat match goal with
           | H : JS.narrow _ = Some _ |- _ =>
               apply narrow_Some in H; destruct H as [H _]
           | H : find_installation _ _ = Some _ |- _ =>
               apply find_installation_Some in H; destruct H
           end;
    (repeat split; try assumption;
     do 2 eexists; repeat split; try eassumption; reflexivity).
Qed.

Lemma upsert_only_after_verification_witness :
  initiatingUser Sample.st = Some "user-1"
  /\ installation_id (Sample.query (Some "codeX") (Some "55") None)
     = Some "55".
Proof.
  destruct (upsert_only_after_verification Sample.env
              (Sample.query (Some "codeX") (Some "55") None) Sample.st
              "user-1" "55" "T" "R") as [_ [H1 [H2 _]]].
  - simpl. right. right. left. reflexivity.
  - split; [exact H1 | exact H2].
Defined.

(** X2.  The calls of a run are an initial part of: the exchange of the
    query's code, the listing with the bearer token that this exchange
    answered, the upsert for the session's initiating user and the query's
    installation id with the token pair of this exchange.  So each
    collaborator is called at most once, the listing never precedes the
    exchange and the upsert never precedes the listing. *)
Theorem calls_follow_protocol (env : Env) (q : Query) (s : St) :
  calls_of (run_callback env q s) = []
  \/ exists c : string,
       code q = Some c
       /\ (calls_of (run_callback env q s) = [CallCreateToken c]
           \/ exists a : Authentication,
                createToken env c = inr a
                /\ (calls_of (run_callback env q s)
                      = [CallCreateToken c;
                         CallListInstallations ("Bearer " ++ token a)]
                    \/ exists u i r : string,
                         initiatingUser s = Some u
                         /\ installation_id q = Some i
                         /\ refreshToken a = Some r
                         /\ calls_of (run_callback env q s)
                            = protocol c (token a) u i r)).
Proof.
  on_path env q s; cbn [calls_of snd];
    repeat match goal with
           | H : JS.narrow _ = Some _ |- _ =>
               apply narrow_Some in H; destruct H as [H _]
           end;
    first
      [ now left
      | right; eexists; split; [eassumption|]; now left
      | right; eexists; split; [eassumption|]; right;
        eexists; split; [eassumption|]; now left
      | right; eexists; split; [eassumption|]; right;
        eexists; split; [eassumption|]; right;
        do 3 eexists; repeat split; eassumption || reflexivity ].
Qed.

(** X3.  A callback without [code] (absent or empty) calls no
    collaborator and leaves the session as it was, whatever its other
    parameters and whatever the session holds. *)
Theorem no_code_no_calls (env : Env) (q : Query) (s : St) :
  JS.truthy (code q) = false ->
  calls_of (run_callback env q s) = []
  /\ session (state_of (run_callback env q s)) = session s.
Proof.
  intros Hc. apply narrow_None in Hc.
  on_path env q s; cbn; rewrite ?session_after_setup_action;
    try (split; reflexivity); congruence.
Qed.

Lemma no_code_no_calls_witness :
  calls_of (run_callback Sample.env
              (Sample.query (Some "") (Some "55") (Some "review"))
              Sample.st) = [].
Proof.
  apply (no_code_no_calls Sample.env
           (Sample.query (Some "") (Some "55") (Some "review")) Sample.st).
  reflexivity.
Defined.

(** X4.  The state token is spent by a committed run: on the session that
    such a run leaves, every later callback, whatever its query and
    whatever the collaborators would answer, is rejected by the state
    check without any call. *)
Theorem committed_state_token_is_spent
    (env env' : Env) (q q' : Query) (s s' : St) :
  committed (run_callback env q s) = true ->
  session s' = session (state_of (run_callback env q s)) ->
  run_callback env' q' s'
  = (Throw (Error "State does not match"), with_status 400 s', []).
Proof.
  intros Hc Hs. apply callback_rejected_state.
  destruct (state_valid q' s') eqn:Hv; [|reflexivity].
  apply state_valid_spec in Hv as [t [_ [_ Ht]]].
  apply committed_inv in Hc as [href [_ Hst]].
  rewrite Hs, Hst in Ht. discriminate Ht.
Qed.

Lemma committed_state_token_is_spent_witness :
  run_callback Sample.env (Sample.query (Some "codeX") (Some "55") None)
    (state_of (run_callback Sample.env
                 (Sample.query (Some "codeX") (Some "55") None) Sample.st))
  = (Throw (Error "State does not match"),
     with_status 400
       (state_of (run_callback Sample.env
                    (Sample.query (Some "codeX") (Some "55") None)
                    Sample.st)),
     []).
Proof.
  apply (committed_state_token_is_spent Sample.env Sample.env
           (Sample.query (Some "codeX") (Some "55") None)
           (Sample.query (Some "codeX") (Some "55") None) Sample.st);
    reflexivity.
Defined.

(** X5.  The status and headers that a run leaves on the controller: 400
    when one of the three guards rejects, else 302 when the run commits,
    else 200 after [setup_action === 'review'], else the status is not
    set at all (in particular not by an authorization or verification
    failure); and the headers are touched by a committed run only. *)
Theorem callback_response (env : Env) (q : Query) (s : St) :
  status (state_of (run_callback env q s))
  = (if rejected q s then Some 400
     else if committed (run_callback env q s) then Some 302
     else if is_review q then Some 200
     else status s)
  /\ (committed (run_callback env q s) = false ->
      headers (state_of (run_callback env q s)) = headers s).
Proof.
  unfold rejected.
  on_path env q s;
    repeat match goal with
           | H : state_valid _ _ = _ |- _ => rewrite H
           | H : JS.narrow _ = Some _ |- _ =>
               let T := fresh in
               assert (T := proj2 (truthy_narrow _) (ex_intro _ _ H));
               rewrite T; clear H
           | H : JS.narrow _ = None |- _ =>
               apply narrow_None in H; rewrite H
           end;
    cbn; rewrite ?status_after_setup_action, ?headers_after_setup_action,
           ?orb_true_r;
    split; try reflexivity; try discriminate.
Qed.

(** X6.  An empty [state] parameter is rejected like an absent one, even
    when the session's pending state is the empty string too. *)
Theorem empty_state_rejected (env : Env) (q : Query) (s : St) :
  JS.truthy (state q) = false ->
  run_callback env q s
  = (Throw (Error "State does not match"), with_status 400 s, []).
Proof.
  intros H. apply callback_rejected_state.
  unfold state_valid. now rewrite H.
Qed.

Lemma empty_state_rejected_witness :
  run_callback Sample.env
    {| code := Some "codeX"; state := Some "";
       installation_id := Some "55"; setup_action := None |}
    {| session :=
         {| Session.oauth :=
              Some {| Session.returnTo := None; Session.state := Some "";
                      Session.inviteCode := Some "user-1" |} |};
       status := None; headers := [] |}
  = (Throw (Error "State does not match"),
     {| session :=
         {| Session.oauth :=
              Some {| Session.returnTo := None; Session.state := Some "";
                      Session.inviteCode := Some "user-1" |} |};
        status := Some 400; headers := [] |},
     []).
Proof.
  apply (empty_state_rejected Sample.env
           {| code := Some "codeX"; state := Some "";
              installation_id := Some "55"; setup_action := None |}).
  reflexivity.
Defined.

(** X7.  [setup_action] influences nothing but the status: a callback has
    the same result, makes the same calls and leaves the same session and
    headers as the same callback without [setup_action]. *)
Theorem setup_action_changes_only_the_status
    (env : Env) (q : Query) (s : St) :
  result_of (run_callback env q s)
  = result_of (run_callback env
                 {| code := code q; state := state q;
                    installation_id := installation_id q;
                    setup_action := None |} s)
  /\ calls_of (run_callback env q s)
     = calls_of (run_callback env
                   {| code := code q; state := state q;
                      installation_id := installation_id q;
                      setup_action := None |} s)
  /\ session (state_of (run_callback env q s))
     = session (state_of (run_callback env
                            {| code := code q; state := state q;
                               installation_id := installation_id q;
                               setup_action := None |} s))
  /\ headers (state_of (run_callback env q s))
     = headers (state_of (run_callback env
                            {| code := code q; state := state q;
                               installation_id := installation_id q;
                               setup_action := None |} s)).
Proof.
  on_path env q s;
    on_path env {| code := code q; state := state q;
                   installation_id := installation_id q;
                   setup_action := None |} s;
    unfold state_valid in *;
    cbn [code state installation_id] in *;
    try congruence;
    cbn [result_of state_of calls_of fst snd];
    rewrite ?session_after_setup_action, ?headers_after_setup_action;
    repeat split; congruence.
Qed.

(** X8.  A committed run sets [Location] to the [href] of the parsed
    [returnTo] (of ['/'] when [returnTo] is absent or empty), which is the
    normalised form and not necessarily the stored string. *)
Theorem commit_redirects_to_parsed_returnTo
    (env : Env) (q : Query) (s : St) :
  committed (run_callback env q s) = true ->
  getHeader "Location" (headers (state_of (run_callback env q s)))
  = URL_href env (JS.or_else (Session.oauth_returnTo (session s)) "/") None.
Proof.
  intros H. apply committed_inv in H as [href [Hurl ->]].
  rewrite Hurl. reflexivity.
Qed.

Lemma commit_redirects_to_parsed_returnTo_witness :
  getHeader "Location"
    (headers (state_of (run_callback Sample.env
                          (Sample.query (Some "codeX") (Some "55") None)
                          Sample.st)))
  = Some "https://app.example.com/generalSettings/integrations".
Proof.
  rewrite (commit_redirects_to_parsed_returnTo Sample.env
             (Sample.query (Some "codeX") (Some "55") None) Sample.st).
  - reflexivity.
  - reflexivity.
Defined.

(** X9.  When the code exchange throws, the exception is what the
    callback throws; the exchange is its only call and the session is
    unchanged. *)
Theorem exchange_failure_propagates
    (env : Env) (q : Query) (s : St) (c : string) (e : Exn) :
  In (CallCreateToken c) (calls_of (run_callback env q s)) ->
  createToken env c = inl e ->
  result_of (run_callback env q s) = Throw e
  /\ calls_of (run_callback env q s) = [CallCreateToken c]
  /\ session (state_of (run_callback env q s)) = session s.
Proof.
  intros Hin Hx.
  on_path env q s; absurd_call;
    match goal with
    | H : CallCreateToken _ = CallCreateToken _ |- _ => injection H as ->
    end;
    try congruence.
  cbn. rewrite session_after_setup_action.
  repeat split. congruence.
Qed.

Lemma exchange_failure_propagates_witness :
  result_of (run_callback Sample.env
               (Sample.query (Some "expired") (Some "55") None) Sample.st)
  = Throw (UpstreamError "bad_verification_code").
Proof.
  destruct (exchange_failure_propagates Sample.env
              (Sample.query (Some "expired") (Some "55") None) Sample.st
              "expired" (UpstreamError "bad_verification_code"))
    as [H _].
  - simpl. left. reflexivity.
  - reflexivity.
  - exact H.
Defined.

(** X10.  When the installation listing throws, the exception is what the
    callback throws; the upsert is not called and the session is
    unchanged. *)
Theorem listing_failure_propagates
    (env : Env) (q : Query) (s : St) (authorization : string) (e : Exn) :
  In (CallListInstallations authorization)
     (calls_of (run_callback env q s)) ->
  listInstallationsForAuthenticatedUser env authorization = inl e ->
  result_of (run_callback env q s) = Throw e
  /\ count_calls is_upsert (calls_of (run_callback env q s)) = 0
  /\ session (state_of (run_callback env q s)) = session s.
Proof.
  intros Hin Hl.
  on_path env q s; absurd_call;
    match goal with
    | H : CallListInstallations _ = CallListInstallations _ |- _ =>
        apply CallListInstallations_inj in H; subst authorization
    end;
    try congruence.
  cbn. rewrite session_after_setup_action.
  repeat split. congruence.
Qed.

Lemma listing_failure_propagates_witness :
  result_of
    (run_callback
       {| lightdashConfig := Sample.config;
          URL_href := Sample.parse_href;
          createToken := createToken Sample.env;
          listInstallationsForAuthenticatedUser := fun _ =>
            inl (UpstreamError "Bad credentials");
          upsertInstallation := fun _ _ _ _ => None |}
       (Sample.query (Some "codeX") (Some "55") None) Sample.st)
  = Throw (UpstreamError "Bad credentials").
Proof.
  destruct (listing_failure_propagates
              {| lightdashConfig := Sample.config;
                 URL_href := Sample.parse_href;
                 createToken := createToken Sample.env;
                 listInstallationsForAuthenticatedUser := fun _ =>
                   inl (UpstreamError "Bad credentials");
                 upsertInstallation := fun _ _ _ _ => None |}
              (Sample.query (Some "codeX") (Some "55") None) Sample.st
              "Bearer T" (UpstreamError "Bad credentials"))
    as [H _].
  - simpl. right. left. reflexivity.
  - reflexivity.
  - exact H.
Defined.

(** X11.  When the credential upsert throws, the exception is what the
    callback throws: the session context is kept, so the state token stays
    valid, no [Location] header is set and the status is not set to 302. *)
Theorem upsert_failure_propagates
    (env : Env) (q : Query) (s : St) (u i t r : string) (e : Exn) :
  In (CallUpsertInstallation u i t r) (calls_of (run_callback env q s)) ->
  upsertInstallation env u i t r = Some e ->
  result_of (run_callback env q s) = Throw e
  /\ session (state_of (run_callback env q s)) = session s
  /\ headers (state_of (run_callback env q s)) = headers s
  /\ status (state_of (run_callback env q s))
     = if is_review q then Some 200 else status s.
Proof.
  intros Hin Hup.
  on_path env q s; absurd_call; same_upsert; try congruence.
  cbn. rewrite session_after_setup_action, headers_after_setup_action,
         status_after_setup_action.
  repeat split. congruence.
Qed.

Lemma upsert_failure_propagates_witness :
  result_of (run_callback SampleService.env_store_down
               (Sample.query (Some "codeX") (Some "55") None) Sample.st)
  = Throw (UpstreamError "db down")
  /\ session (state_of (run_callback SampleService.env_store_down
                          (Sample.query (Some "codeX") (Some "55") None)
                          Sample.st))
     = session Sample.st.
Proof.
  destruct (upsert_failure_propagates SampleService.env_store_down
              (Sample.query (Some "codeX") (Some "55") None) Sample.st
              "user-1" "55" "T" "R" (UpstreamError "db down"))
    as [H1 [H2 _]].
  - simpl. right. right. left. reflexivity.
  - reflexivity.
  - split; [exact H1 | exact H2].
Defined.

(** ** Further properties of the initiation endpoint *)

Lemma state_of_nanoid_nonempty (cfg : Config) (nanoid : string) :
  state_of_nanoid cfg nanoid <> "".
Proof.
  unfold state_of_nanoid. now destruct (github_redirectDomain cfg).
Qed.

(** X12.  Round trip of the state token: on the session that the
    initiation leaves, the state check of the callback passes exactly for
    the token that the initiation generated. *)
Theorem initiation_state_round_trip
    (env : Env) (userUuid nanoid href : string) (s : St) (q : Query) :
  URL_href env "/generalSettings/integrations"
    (Some (siteUrl (lightdashConfig env))) = Some href ->
  state_valid q
    (state_of (installGithubAppForOrganization env userUuid nanoid s))
  = true
  <-> state q = Some (state_of_nanoid (lightdashConfig env) nanoid).
Proof.
  intros Hsite. rewrite (install_run env userUuid nanoid href s Hsite).
  rewrite state_valid_spec. cbn. split.
  - intros [t [Hq [_ Ht]]]. congruence.
  - intros Hq. eexists. repeat split; [eassumption|].
    apply state_of_nanoid_nonempty.
Qed.

Lemma initiation_state_round_trip_witness :
  state_valid (Sample.query None None None)
    (state_of (installGithubAppForOrganization Sample.env "user-1"
                 "AbC123" Sample.st_no_returnTo))
  = true.
Proof.
  apply (initiation_state_round_trip Sample.env "user-1" "AbC123"
           "https://app.example.com/generalSettings/integrations"
           Sample.st_no_returnTo (Sample.query None None None)).
  - reflexivity.
  - reflexivity.
Defined.

(** X13.  A new initiation on the same session supersedes the previous
    one: a callback that carries the earlier state token is rejected by
    the state check, without any call, as soon as the later initiation
    generated a different token. *)
Theorem new_initiation_invalidates_previous_token
    (env : Env) (user1 nanoid1 user2 nanoid2 href : string)
    (s : St) (q : Query) :
  URL_href env "/generalSettings/integrations"
    (Some (siteUrl (lightdashConfig env))) = Some href ->
  state_of_nanoid (lightdashConfig env) nanoid1
    <> state_of_nanoid (lightdashConfig env) nanoid2 ->
  state q = Some (state_of_nanoid (lightdashConfig env) nanoid1) ->
  result_of
    (run_callback env q
       (state_of
          (installGithubAppForOrganization env user2 nanoid2
             (state_of
                (installGithubAppForOrganization env user1 nanoid1 s)))))
  = Throw (Error "State does not match")
  /\ calls_of
       (run_callback env q
          (state_of
             (installGithubAppForOrganization env user2 nanoid2
                (state_of
                   (installGithubAppForOrganization env user1 nanoid1
                      s)))))
     = [].
Proof.
  intros Hsite Hne Hq.
  rewrite callback_rejected_state; [split; reflexivity|].
  destruct (state_valid q _) eqn:Hv; [|reflexivity].
  apply (initiation_state_round_trip env user2 nanoid2 href _ q Hsite)
    in Hv.
  congruence.
Qed.

Lemma new_initiation_invalidates_previous_token_witness :
  result_of
    (run_callback Sample.env
       {| code := Some "codeX"; state := Some "eu_first";
          installation_id := Some "55"; setup_action := None |}
       (state_of
          (installGithubAppForOrganization Sample.env "user-1" "second"
             (state_of
                (installGithubAppForOrganization Sample.env "user-1"
                   "first" Sample.st)))))
  = Throw (Error "State does not match").
Proof.
  destruct (new_initiation_invalidates_previous_token Sample.env
              "user-1" "first" "user-1" "second"
              "https://app.example.com/generalSettings/integrations"
              Sample.st
              {| code := Some "codeX"; state := Some "eu_first";
                 installation_id := Some "55"; setup_action := None |})
    as [H _].
  - reflexivity.
  - discriminate.
  - reflexivity.
  - exact H.
Defined.

(** X14.  The initiation answers 302 to the provider's installation page
    with, as [state] parameter, the very token it stored in the session;
    it calls no collaborator. *)
Theorem initiation_redirect_carries_stored_state
    (env : Env) (userUuid nanoid href : string) (s : St) :
  URL_href env "/generalSettings/integrations"
    (Some (siteUrl (lightdashConfig env))) = Some href ->
  exists token : string,
    Session.oauth_state
      (session
         (state_of (installGithubAppForOrganization env userUuid nanoid s)))
    = Some token
    /\ getHeader "Location"
         (headers
            (state_of
               (installGithubAppForOrganization env userUuid nanoid s)))
       = Some ("https://github.com/apps/"
                 ++ github_appName (lightdashConfig env)
                 ++ "/installations/new?state=" ++ token)
    /\ status
         (state_of (installGithubAppForOrganization env userUuid nanoid s))
       = Some 302
    /\ calls_of (installGithubAppForOrganization env userUuid nanoid s)
       = [].
Proof.
  intros Hsite. rewrite (install_run env userUuid nanoid href s Hsite).
  eexists. cbn. repeat split; reflexivity.
Qed.

Lemma initiation_redirect_carries_stored_state_witness :
  exists token : string,
    Session.oauth_state
      (session
         (state_of (installGithubAppForOrganization Sample.env "user-1"
                      "AbC123" Sample.st)))
    = Some token
    /\ getHeader "Location"
         (headers
            (state_of (installGithubAppForOrganization Sample.env "user-1"
                         "AbC123" Sample.st)))
       = Some ("https://github.com/apps/lightdash-app"
                 ++ "/installations/new?state=" ++ token).
Proof.
  destruct (initiation_redirect_carries_stored_state Sample.env "user-1"
              "AbC123"
              "https://app.example.com/generalSettings/integrations"
              Sample.st) as [t [H1 [H2 _]]].
  - reflexivity.
  - exists t. split; [exact H1 | exact H2].
Defined.

(** X15.  With a site URL that is no valid base the initiation throws
    [TypeError] at its first statement: the session keeps whatever
    context it held, and neither status nor header is set. *)
Theorem initiation_throws_on_invalid_siteUrl
    (env : Env) (userUuid nanoid : string) (s : St) :
  URL_href env "/generalSettings/integrations"
    (Some (siteUrl (lightdashConfig env))) = None ->
  result_of (installGithubAppForOrganization env userUuid nanoid s)
    = Throw (TypeError "Invalid URL")
  /\ state_of (installGithubAppForOrganization env userUuid nanoid s) = s
  /\ forall q,
       state_valid q
         (state_of (installGithubAppForOrganization env userUuid nanoid s))
       = state_valid q s.
Proof.
  intros H. rewrite (install_invalid_siteUrl env userUuid nanoid s H).
  repeat split.
Qed.

Lemma initiation_throws_on_invalid_siteUrl_witness :
  state_of (installGithubAppForOrganization SampleService.env_bad_site
              "user-1" "AbC123" Sample.st)
  = Sample.st.
Proof.
  destruct (initiation_throws_on_invalid_siteUrl
              SampleService.env_bad_site "user-1" "AbC123" Sample.st)
    as [_ [H _]].
  - reflexivity.
  - exact H.
Defined.

(** X16.  [replace('_', '')] shortens the result of [nanoid()] by one
    character when it holds an underscore and leaves it as it is
    otherwise: the random part of a state token has 20 or 21 characters. *)
Theorem randomID_of_length (nanoid : string) :
  String.length (randomID_of nanoid)
  + Nat.min 1 (JS.count_char "_" nanoid)
  = String.length nanoid
  /\ (JS.count_char "_" nanoid = 0 -> randomID_of nanoid = nanoid).
Proof.
  induction nanoid as [|c s [IH1 IH2]]; [split; reflexivity|].
  rewrite randomID_of_cons. cbn [JS.count_char String.length].
  destruct (Ascii.eqb c "_") eqn:E.
  - split; [cbn; lia | discriminate].
  - cbn [plus]. cbn [String.length]. split; [lia|].
    intros H0. now rewrite (IH2 H0).
Qed.

(** ** Further properties of the verification step *)

Lemma to_int_not_nil (n : Z) :
  Z.to_int n <> Decimal.Pos Decimal.Nil
  /\ Z.to_int n <> Decimal.Neg Decimal.Nil.
Proof.
  destruct n as [|p|p]; cbn; split; try discriminate; intros [= H];
    now apply DecimalPos.Unsigned.to_uint_nonnil in H.
Qed.

(** The string forms of two integers are equal only for equal integers. *)
Lemma Number_toString_inj (a b : Z) :
  JS.Number_toString a = JS.Number_toString b -> a = b.
Proof.
  unfold JS.Number_toString. intros H.
  apply DecimalZ.to_int_inj.
  destruct (to_int_not_nil a) as [Ha1 Ha2].
  destruct (to_int_not_nil b) as [Hb1 Hb2].
  pose proof (NilZero.isi (Z.to_int a) Ha1 Ha2) as Ea.
  pose proof (NilZero.isi (Z.to_int b) Hb1 Hb2) as Eb.
  rewrite H in Ea. congruence.
Qed.

(** X17.  The comparison of string forms is exact on the numbers.  For
    listed ids and a number [n] that are safe integers, so that their
    string forms are their decimal digits, and a claimed id that is the
    string form of [n], the search finds the first listed installation
    whose numeric id is [n], and fails when none has that id. *)
Theorem verifier_matches_numeric_id (n : Z) (l : list Installation) :
  Number_isSafeInteger n = true ->
  forallb (fun x => Number_isSafeInteger (id x)) l = true ->
  find_installation (JS.Number_toString n) l
  = find (fun x => (id x =? n)%Z) l.
Proof.
  intros _ _. unfold find_installation.
  induction l as [|x l IH]; [reflexivity|].
  cbn [find]. rewrite IH.
  destruct (Z.eqb_spec (id x) n) as [->|Hne].
  - now rewrite String.eqb_refl.
  - destruct (String.eqb_spec (JS.Number_toString (id x))
                (JS.Number_toString n)) as [E|_]; [|reflexivity].
    now apply Number_toString_inj in E.
Qed.

Lemma verifier_matches_numeric_id_witness :
  find_installation "55" [ {| id := 54 |}; {| id := 55 |} ]
  = Some {| id := 55 |}.
Proof.
  change "55" with (JS.Number_toString 55).
  rewrite (verifier_matches_numeric_id 55
             [ {| id := 54 |}; {| id := 55 |} ]).
  - reflexivity.
  - reflexivity.
  - reflexivity.
Defined.

(** ** The whole handshake *)

(** X18.  Initiation followed by the callback: on the session that the
    initiation for [userUuid] leaves, the callback that carries the
    generated state, a code that the provider exchanges for a token pair
    and an installation id that the provider lists for that token,
    upserts the credential of [userUuid], and of nobody else, after the
    exchange and the listing, empties the session context and redirects to
    the stored return target. *)
Theorem initiation_then_callback_links_the_initiator
    (env : Env) (userUuid nanoid href c i r : string)
    (setup_action : option string) (a : Authentication)
    (l : list Installation) (x : Installation) (s s' : St) :
  URL_href env "/generalSettings/integrations"
    (Some (siteUrl (lightdashConfig env))) = Some href ->
  href <> "" ->
  URL_href env href None = Some href ->
  session s'
    = session
        (state_of (installGithubAppForOrganization env userUuid nanoid s)) ->
  userUuid <> "" -> i <> "" -> c <> "" ->
  createToken env c = inr a ->
  refreshToken a = Some r ->
  listInstallationsForAuthenticatedUser env ("Bearer " ++ token a) = inr l ->
  find_installation i l = Some x ->
  upsertInstallation env userUuid i (token a) r = None ->
  run_callback env
    (callback_query (lightdashConfig env) nanoid (Some c) (Some i)
       setup_action) s'
  = (Return tt, completed href s', protocol c (token a) userUuid i r).
Proof.
  intros Hsite Hne Hrt Hs Hu Hi Hc Hx Hr Hl Hf Hup.
  rewrite (install_run env userUuid nanoid href s Hsite) in Hs.
  cbn [state_of fst snd session] in Hs.
  apply String.eqb_neq in Hne, Hu, Hi, Hc.
  apply (run_committed env _ s' userUuid i c r href a l x);
    try assumption.
  - apply state_valid_spec. eexists. rewrite Hs. cbn.
    repeat split. apply state_of_nanoid_nonempty.
  - unfold initiatingUser. rewrite Hs. cbn. now rewrite Hu.
  - cbn. now rewrite Hi.
  - cbn. now rewrite Hc.
  - rewrite Hs. unfold JS.or_else. cbn. now rewrite Hne.
Qed.

Lemma initiation_then_callback_links_the_initiator_witness :
  calls_of
    (run_callback Sample.env
       (callback_query Sample.config "AbC123" (Some "codeX") (Some "55")
          None)
       (state_of (installGithubAppForOrganization Sample.env "user-7"
                    "AbC123" Sample.st)))
  = [CallCreateToken "codeX"; CallListInstallations "Bearer T";
     CallUpsertInstallation "user-7" "55" "T" "R"].
Proof.
  rewrite (initiation_then_callback_links_the_initiator Sample.env
             "user-7" "AbC123"
             "https://app.example.com/generalSettings/integrations"
             "codeX" "55" "R" None
             {| token := "T"; refreshToken := Some "R" |}
             [ {| id := 54 |}; {| id := 55 |} ] {| id := 55 |}
             Sample.st).
  - reflexivity.
  - reflexivity.
  - discriminate.
  - reflexivity.
  - reflexivity.
  - discriminate.
  - discriminate.
  - discriminate.
  - reflexivity.
  - reflexivity.
  - reflexivity.
  - reflexivity.
  - reflexivity.
Defined.

(** ** The endpoints on the linked installation *)

(** X19.  Uninstall sets its status only after the service has deleted
    the installation: when the service throws, the exception is what the
    endpoint throws and nothing is set; in both cases the session, and
    with it a pending state token, is left as it was. *)
Theorem uninstall_sets_status_after_deletion
    {GitRepo : Type} (services : GithubAppService GitRepo)
    (user : SessionUser.t) (s : St) :
  uninstallGithubAppForOrganization services user s
  = match deleteAppInstallation services user with
    | None =>
        (Return {| Api.status := "ok"; Api.results := tt |},
         with_status 200 s, [])
    | Some e => (Throw e, s, [])
    end
  /\ forall q,
       state_valid q
         (state_of (uninstallGithubAppForOrganization services user s))
       = state_valid q s.
Proof.
  unfold uninstallGithubAppForOrganization, awaitService, bind, setStatus,
    ret.
  destruct (deleteAppInstallation services user); split; reflexivity.
Qed.

(** X20.  Listing the repositories sets status 200 before it asks the
    service: the status is 200 also when the service throws and the
    endpoint throws that exception; otherwise the repositories of the
    service are returned as they are, in the ['ok'] envelope.  The session
    is left as it was. *)
Theorem list_repositories_sets_status_first
    {GitRepo : Type} (services : GithubAppService GitRepo)
    (user : SessionUser.t) (s : St) :
  result_of (getGithubListRepositories services user s)
  = match getRepos services user with
    | inr repos => Return {| Api.status := "ok"; Api.results := repos |}
    | inl e => Throw e
    end
  /\ state_of (getGithubListRepositories services user s)
     = with_status 200 s.
Proof.
  unfold getGithubListRepositories, awaitService, bind, setStatus, ret.
  destruct (getRepos services user); split; reflexivity.
Qed.

Example list_repositories_of_unlinked_user :
  getGithubListRepositories SampleService.services SampleService.user2
    Sample.st
  = (Throw (UpstreamError "not found"), with_status 200 Sample.st, []).
Proof. reflexivity. Qed.

Example uninstall_of_linked_user :
  uninstallGithubAppForOrganization SampleService.services
    SampleService.user1 Sample.st
  = (Return {| Api.status := "ok"; Api.results := tt |},
     with_status 200 Sample.st, []).
Proof. reflexivity. Qed.

(** ** The separators of a state token *)

Lemma count_char_append (c : ascii) (s1 s2 : string) :
  JS.count_char c (s1 ++ s2) = JS.count_char c s1 + JS.count_char c s2.
Proof.
  induction s1 as [|d s1 IH]; [reflexivity|].
  cbn [append JS.count_char]. rewrite IH. lia.
Qed.

(** X21.  The separators of a state token: those of the configured
    redirect domain, the one that joins the two parts, and all but the
    first of the underscores that [nanoid()] returned.  So the token has
    the separator once exactly when the domain has no underscore and
    [nanoid()] returned at most one. *)
Theorem state_token_separators (cfg : Config) (nanoid : string) :
  JS.count_char "_" (state_of_nanoid cfg nanoid)
  = JS.count_char "_" (github_redirectDomain cfg) + 1
    + pred (JS.count_char "_" nanoid)
  /\ (JS.count_char "_" (state_of_nanoid cfg nanoid) = 1
      <-> JS.count_char "_" (github_redirectDomain cfg) = 0
          /\ JS.count_char "_" nanoid <= 1).
Proof.
  assert (E : JS.count_char "_" (state_of_nanoid cfg nanoid)
              = JS.count_char "_" (github_redirectDomain cfg) + 1
                + pred (JS.count_char "_" nanoid)).
  { unfold state_of_nanoid. rewrite !count_char_append, count_randomID_of.
    cbn. lia. }
  split; [exact E|]. rewrite E. lia.
Qed.
